(** * Fraucheky: the USB Mass Storage Class responder of [fraucheky.c]

    A shallow embedding of the descriptor tables and of the three entry
    points the USB link-layer driver calls back into:
    [fraucheky_setup_endpoints_for_interface], [fraucheky_setup] and
    [fraucheky_get_descriptor].

    Conventions.
    - C integers are [Z].  A [uint8_t] argument ranges over [0 <= z < 2^8],
      a [uint16_t] one over [0 <= z < 2^16]; the entry points do no
      arithmetic on their arguments, so the only narrowing in the file is the
      one of [sizeof] into the [uint16_t] field of [struct desc], which is
      written out ([uint16_t]).
    - A [const uint8_t] array is the list of its bytes; a pointer to such a
      static table is modelled by the table's contents.
    - The link-layer driver is external.  Its four primitives are recorded,
      in call order, in a log that the entry points thread through
      ([lld]). *)

From Stdlib Require Import ZArith List Bool Ascii Lia.
Import ListNotations.
Local Open Scope Z_scope.

(** ** The link-layer driver as a call log *)

(** One constructor per primitive of [usb_lld.h] that the file calls, with
    the arguments of the call. *)
Inductive lld_call : Type :=
| Setup_endpoint (ep_num ep_type ep_kind ep_rx_addr ep_tx_addr ep_rx_size : Z)
| Stall_tx (ep_num : Z)
| Stall_rx (ep_num : Z)
| Set_data_to_send (p : list Z) (len : Z).

(** Computations that call into the link layer: the log of the calls made so
    far goes in, a value and the extended log come out. *)
Definition lld (A : Type) : Type := list lld_call -> A * list lld_call.

Definition ret {A : Type} (a : A) : lld A := fun log => (a, log).

Definition bind {A B : Type} (m : lld A) (k : A -> lld B) : lld B :=
  fun log => let (a, log') := m log in k a log'.

Definition call (c : lld_call) : lld unit := fun log => (tt, log ++ [c]).

Declare Scope lld_scope.
Delimit Scope lld_scope with lld.
Notation "x <- m ;; k" := (bind m (fun x => k))
  (at level 61, m at next level, right associativity) : lld_scope.
Notation "m ;; k" := (bind m (fun _ => k))
  (at level 61, right associativity) : lld_scope.
Local Open Scope lld_scope.

Definition usb_lld_setup_endpoint
  (ep_num ep_type ep_kind ep_rx_addr ep_tx_addr ep_rx_size : Z) : lld unit :=
  call (Setup_endpoint ep_num ep_type ep_kind ep_rx_addr ep_tx_addr ep_rx_size).

Definition usb_lld_stall_tx (ep_num : Z) : lld unit := call (Stall_tx ep_num).

Definition usb_lld_stall_rx (ep_num : Z) : lld unit := call (Stall_rx ep_num).

Definition usb_lld_set_data_to_send (p : list Z) (len : Z) : lld unit :=
  call (Set_data_to_send p len).

(** ** C-level helpers *)

(** Modelled from the spec: the result constants [USB_SUCCESS] and
    [USB_UNSUPPORT] of the absent [usb_lld.h], the "two-valued outcome
    model": Success or Unsupported. *)
Inductive usb_result : Type := USB_UNSUPPORT | USB_SUCCESS.

Definition uint16_t (z : Z) : Z := z mod 2 ^ 16.

(** [sizeof] of a byte array is its number of elements. *)
Definition sizeof (a : list Z) : Z := Z.of_nat (length a).

(** A character constant used as a byte. *)
Definition chr (c : ascii) : Z := Z.of_N (N_of_ascii c).

(** A little-endian 16-bit field at offset [off] of a descriptor. *)
Definition le16 (d : list Z) (off : nat) : Z :=
  Z.lor (nth off d 0) (Z.shiftl (nth (S off) d 0) 8).

(** [struct desc { const uint8_t *desc; uint16_t size; };] *)
Record desc : Type := Build_desc { desc_ptr : list Z; size : Z }.

(** ** Constants of this file *)

Definition ENDP6_TXADDR : Z := 0x180.
Definition ENDP6_RXADDR : Z := 0x1c0.

Definition USB_INITIAL_FEATURE : Z := 0x80.

Definition MSC_GET_MAX_LUN_COMMAND : Z := 0xFE.
Definition MSC_MASS_STORAGE_RESET_COMMAND : Z := 0xFF.

Definition MSC_TOTAL_LENGTH : Z := 9 + 7 + 7.

(** ** What a call log is examined for *)

(** The call is one of [usb_lld_set_data_to_send]. *)
Definition is_send (c : lld_call) : bool :=
  match c with
  | Set_data_to_send _ _ => true
  | _ => false
  end.

(** The endpoint a call configures or stalls. *)
Definition endpoint_of (c : lld_call) : option Z :=
  match c with
  | Setup_endpoint ep_num _ _ _ _ _ => Some ep_num
  | Stall_tx ep_num => Some ep_num
  | Stall_rx ep_num => Some ep_num
  | Set_data_to_send _ _ => None
  end.

(** The length given to [usb_lld_set_data_to_send] stays inside the buffer
    given with it. *)
Definition sends_within (c : lld_call) : Prop :=
  match c with
  | Set_data_to_send p len => 0 <= len <= sizeof p
  | _ => True
  end.

(** The length given to [usb_lld_set_data_to_send] is the whole buffer. *)
Definition sends_whole (c : lld_call) : Prop :=
  match c with
  | Set_data_to_send p len => len = sizeof p
  | _ => True
  end.

(** The descriptors a host reads out of a buffer: each one starts with its
    [bLength], which tells where the next one starts.  [None] when a
    [bLength] is below the two-byte header or runs past the end. *)
Fixpoint descriptors_of (fuel : nat) (d : list Z) : option (list (list Z)) :=
  match d with
  | [] => Some []
  | bLength :: _ =>
      match fuel with
      | O => None
      | S fuel' =>
          if (2 <=? bLength) && (bLength <=? sizeof d) then
            option_map (cons (firstn (Z.to_nat bLength) d))
              (descriptors_of fuel' (skipn (Z.to_nat bLength) d))
          else None
      end
  end.

(** ** A concrete build

    The values the USB 1.1 standard gives to the constants that [usb_lld.h]
    names, and sample contents for the two generated include files.  The
    entry points are run on them to exercise the theorems below. *)
Module Sample.

Definition DEVICE_RECIPIENT : Z := 0.
Definition DEVICE_DESCRIPTOR : Z := 1.
Definition CONFIG_DESCRIPTOR : Z := 2.
Definition STRING_DESCRIPTOR : Z := 3.
Definition INTERFACE_DESCRIPTOR : Z := 4.

Definition USB_DEVICE_DESCRIPTOR_TYPE : Z := 0x01.
Definition USB_CONFIGURATION_DESCRIPTOR_TYPE : Z := 0x02.
Definition USB_STRING_DESCRIPTOR_TYPE : Z := 0x03.
Definition USB_INTERFACE_DESCRIPTOR_TYPE : Z := 0x04.
Definition USB_ENDPOINT_DESCRIPTOR_TYPE : Z := 0x05.

Definition ENDP6 : Z := 6.
Definition EP_BULK : Z := 0x0000.

Definition REQUEST_DIR : Z := 0x80.
Definition USB_SETUP_GET (req : Z) : bool :=
  negb (Z.land req REQUEST_DIR =? 0).

(** idVendor = 0x234b, idProduct = 0x0004, bcdDevice = 0x0200 *)
Definition vid_pid_ver : list Z := [ 0x4b; 0x23; 0x04; 0x00; 0x00; 0x02 ].

Definition string_vendor : list Z :=
  [ 4 * 2 + 2; USB_STRING_DESCRIPTOR_TYPE;
    chr "F"; 0; chr "S"; 0; chr "I"; 0; chr "J"; 0 ].

Definition string_product : list Z :=
  [ 3 * 2 + 2; USB_STRING_DESCRIPTOR_TYPE;
    chr "G"; 0; chr "P"; 0; chr "L"; 0 ].

End Sample.

Section Fraucheky.

(** What [usb_lld.h] and the two generated include files provide.  None of
    them is part of [fraucheky.c]; the development is parametric in them. *)

(** [usb_lld.h]: recipient and descriptor selectors of a GET_DESCRIPTOR
    request. *)
Variable DEVICE_RECIPIENT : Z.
Variables DEVICE_DESCRIPTOR CONFIG_DESCRIPTOR STRING_DESCRIPTOR : Z.

(** [usb_lld.h]: the [bDescriptorType] tags written into the tables. *)
Variables USB_DEVICE_DESCRIPTOR_TYPE USB_CONFIGURATION_DESCRIPTOR_TYPE
          USB_STRING_DESCRIPTOR_TYPE USB_INTERFACE_DESCRIPTOR_TYPE
          USB_ENDPOINT_DESCRIPTOR_TYPE : Z.

(** [usb_lld.h]: endpoint number and endpoint type. *)
Variables ENDP6 EP_BULK : Z.

(** [usb_lld.h]: the macro telling the direction of a setup request from
    its [bmRequestType]. *)
Variable USB_SETUP_GET : Z -> bool.

(** [fraucheky-vid-pid-ver.c.inc]: the bytes it places inside
    [device_desc] (idVendor, idProduct, bcdDevice). *)
Variable vid_pid_ver : list Z.

(** [fraucheky-usb-strings.c.inc]: the vendor and product string
    descriptors. *)
Variables string_vendor string_product : list Z.

(** The selectors are pairwise distinct, as the members of one enumeration
    are. *)
Hypothesis DEVICE_CONFIG_distinct : DEVICE_DESCRIPTOR <> CONFIG_DESCRIPTOR.
Hypothesis DEVICE_STRING_distinct : DEVICE_DESCRIPTOR <> STRING_DESCRIPTOR.
Hypothesis CONFIG_STRING_distinct : CONFIG_DESCRIPTOR <> STRING_DESCRIPTOR.

(** The include file fills the three 16-bit fields between
    [bMaxPacketSize0] and [iManufacturer]. *)
Hypothesis vid_pid_ver_length : length vid_pid_ver = 6%nat.

(** ** Descriptor tables *)

(** USB Standard Device Descriptor *)
Definition device_desc : list Z :=
  [ 18;                          (* bLength *)
    USB_DEVICE_DESCRIPTOR_TYPE;  (* bDescriptorType *)
    0x10; 0x01;                  (* bcdUSB = 1.1 *)
    0x00;                        (* bDeviceClass *)
    0x00;                        (* bDeviceSubClass *)
    0x00;                        (* bDeviceProtocol *)
    0x40 ]                       (* bMaxPacketSize0 *)
  ++ vid_pid_ver ++
  [ 1;    (* iManufacturer *)
    2;    (* iProduct *)
    3;    (* iSerialNumber *)
    1 ].  (* bNumConfigurations *)

(** Configuration Descriptor *)
Definition config_desc : list Z :=
  [ 9;                                  (* bLength *)
    USB_CONFIGURATION_DESCRIPTOR_TYPE;  (* bDescriptorType *)
    (9 + 9 + 7 + 7); 0x00;              (* wTotalLength *)
    1;                                  (* bNumInterfaces *)
    0x01;                               (* bConfigurationValue *)
    0x00;                               (* iConfiguration *)
    USB_INITIAL_FEATURE;                (* bmAttributes *)
    50;                                 (* MaxPower 100 mA *)
    (* Interface Descriptor *)
    9;                                  (* bLength *)
    USB_INTERFACE_DESCRIPTOR_TYPE;      (* bDescriptorType *)
    0;                                  (* bInterfaceNumber *)
    0x00;                               (* bAlternateSetting *)
    0x02;                               (* bNumEndpoints *)
    0x08;                               (* bInterfaceClass *)
    0x06;                               (* bInterfaceSubClass *)
    0x50;                               (* bInterfaceProtocol *)
    0x00;                               (* iInterface *)
    (* Endpoint Descriptor *)
    7;                                  (* bLength *)
    USB_ENDPOINT_DESCRIPTOR_TYPE;       (* bDescriptorType *)
    0x86;                               (* bEndpointAddress: IN6 *)
    0x02;                               (* bmAttributes (Bulk) *)
    0x40; 0x00;                         (* wMaxPacketSize *)
    0x00;                               (* bInterval *)
    (* Endpoint Descriptor *)
    7;                                  (* bLength *)
    USB_ENDPOINT_DESCRIPTOR_TYPE;       (* bDescriptorType *)
    0x06;                               (* bEndpointAddress: OUT6 *)
    0x02;                               (* bmAttributes (Bulk) *)
    0x40; 0x00;                         (* wMaxPacketSize *)
    0x00 ].                             (* bInterval *)

(** USB String Descriptors *)
Definition string_lang_id : list Z :=
  [ 4;                           (* bLength *)
    USB_STRING_DESCRIPTOR_TYPE;
    0x09; 0x04 ].                (* LangID = 0x0409: US-English *)

Definition string_serial : list Z :=
  [ 8 * 2 + 2;                   (* bLength *)
    USB_STRING_DESCRIPTOR_TYPE;  (* bDescriptorType *)
    (* Serial number: FSIJ-0.0 *)
    chr "F"; 0; chr "S"; 0; chr "I"; 0; chr "J"; 0;
    chr "-"; 0; chr "0"; 0; chr "."; 0; chr "0"; 0 ].

Definition string_descriptors : list desc :=
  [ Build_desc string_lang_id (uint16_t (sizeof string_lang_id));
    Build_desc string_vendor (uint16_t (sizeof string_vendor));
    Build_desc string_product (uint16_t (sizeof string_product));
    Build_desc string_serial (uint16_t (sizeof string_serial)) ].

(** [sizeof (string_descriptors) / sizeof (struct desc)] *)
Definition string_descriptors_count : Z :=
  Z.of_nat (length string_descriptors).

(** [string_descriptors[i]]; the only use is guarded by the bound check
    of [fraucheky_get_descriptor]. *)
Definition string_descriptors_at (i : Z) : desc :=
  nth (Z.to_nat i) string_descriptors (Build_desc [] 0).

(** [static const uint8_t lun_table[]] of [fraucheky_setup] *)
Definition lun_table : list Z := [ 0; 0; 0; 0 ].

(** ** Entry points *)

Definition fraucheky_setup_endpoints_for_interface (stop : Z) : lld unit :=
  if stop =? 0 then
    usb_lld_setup_endpoint ENDP6 EP_BULK 0 ENDP6_RXADDR ENDP6_TXADDR 64
  else
    usb_lld_stall_tx ENDP6 ;;
    usb_lld_stall_rx ENDP6.

Definition fraucheky_setup (req req_no value len : Z) : lld usb_result :=
  if USB_SETUP_GET req then
    if req_no =? MSC_GET_MAX_LUN_COMMAND then
      usb_lld_set_data_to_send lun_table (sizeof lun_table) ;;
      ret USB_SUCCESS
    else
      ret USB_UNSUPPORT
  else if req_no =? MSC_MASS_STORAGE_RESET_COMMAND then
    ret USB_SUCCESS
  else
    ret USB_UNSUPPORT.

Definition fraucheky_get_descriptor (rcp desc_type desc_index index : Z)
  : lld usb_result :=
  if (rcp =? DEVICE_RECIPIENT) && (index =? 0) then
    if desc_type =? DEVICE_DESCRIPTOR then
      usb_lld_set_data_to_send device_desc (sizeof device_desc) ;;
      ret USB_SUCCESS
    else if desc_type =? CONFIG_DESCRIPTOR then
      usb_lld_set_data_to_send config_desc (sizeof config_desc) ;;
      ret USB_SUCCESS
    else if desc_type =? STRING_DESCRIPTOR then
      if desc_index <? string_descriptors_count then
        usb_lld_set_data_to_send
          (desc_ptr (string_descriptors_at desc_index))
          (size (string_descriptors_at desc_index)) ;;
        ret USB_SUCCESS
      else
        ret USB_UNSUPPORT
    else
      ret USB_UNSUPPORT
  else
    ret USB_UNSUPPORT.

(** ** Unfolding the entry points *)

Ltac lld_unfold :=
  unfold usb_lld_setup_endpoint, usb_lld_stall_tx, usb_lld_stall_rx,
    usb_lld_set_data_to_send, call, bind, ret.

Lemma string_descriptors_count_eq : string_descriptors_count = 4.
Proof. reflexivity. Qed.

Lemma sizeof_config_desc : sizeof config_desc = 32.
Proof. reflexivity. Qed.

Lemma sizeof_device_desc : sizeof device_desc = 18.
Proof using vid_pid_ver_length.
  unfold sizeof, device_desc.
  rewrite !length_app, vid_pid_ver_length. reflexivity.
Qed.

(** A request for another recipient, or with a nonzero language index, is
    not serviced and leaves the link layer alone. *)
Lemma get_descriptor_not_serviced rcp desc_type desc_index index log :
  (rcp =? DEVICE_RECIPIENT) && (index =? 0) = false ->
  fraucheky_get_descriptor rcp desc_type desc_index index log
  = (USB_UNSUPPORT, log).
Proof.
  intros Hguard. unfold fraucheky_get_descriptor.
  rewrite Hguard. reflexivity.
Qed.

(** The guard of [fraucheky_get_descriptor] on a serviced request. *)
Lemma get_descriptor_guard :
  (DEVICE_RECIPIENT =? DEVICE_RECIPIENT) && (0 =? 0) = true.
Proof. rewrite Z.eqb_refl. reflexivity. Qed.

(** The outcome and the calls of [fraucheky_get_descriptor], case by
    case. *)
Lemma get_descriptor_cases rcp desc_type desc_index index log :
  fraucheky_get_descriptor rcp desc_type desc_index index log
  = (USB_UNSUPPORT, log)
  \/ exists p len,
      fraucheky_get_descriptor rcp desc_type desc_index index log
      = (USB_SUCCESS, log ++ [Set_data_to_send p len]).
Proof.
  unfold fraucheky_get_descriptor.
  destruct ((rcp =? DEVICE_RECIPIENT) && (index =? 0)); [ | now left ].
  destruct (desc_type =? DEVICE_DESCRIPTOR); [ right; lld_unfold; eauto | ].
  destruct (desc_type =? CONFIG_DESCRIPTOR); [ right; lld_unfold; eauto | ].
  destruct (desc_type =? STRING_DESCRIPTOR); [ | now left ].
  destruct (desc_index <? string_descriptors_count); [ | now left ].
  right; lld_unfold; eauto.
Qed.

(** ** The descriptor lookup *)

(** C1: for every [desc_index] below the number of entries of
    [string_descriptors], which is 4, a request for the string descriptor
    [desc_index] of the device with language index 0 returns
    [USB_SUCCESS] and hands the link layer the bytes and the size of that
    table entry, in one call; for every [desc_index] from 4 on it returns
    [USB_UNSUPPORT]. *)
Theorem get_descriptor_string (desc_index : Z) (log : list lld_call) :
  string_descriptors_count = 4
  /\ (0 <= desc_index < string_descriptors_count ->
      exists d,
        nth_error string_descriptors (Z.to_nat desc_index) = Some d
        /\ fraucheky_get_descriptor DEVICE_RECIPIENT STRING_DESCRIPTOR
             desc_index 0 log
           = (USB_SUCCESS, log ++ [Set_data_to_send (desc_ptr d) (size d)]))
  /\ (string_descriptors_count <= desc_index ->
      fst (fraucheky_get_descriptor DEVICE_RECIPIENT STRING_DESCRIPTOR
             desc_index 0 log)
      = USB_UNSUPPORT).
Proof using DEVICE_STRING_distinct CONFIG_STRING_distinct.
  clear DEVICE_CONFIG_distinct vid_pid_ver_length.
  assert (Hdev : (STRING_DESCRIPTOR =? DEVICE_DESCRIPTOR) = false)
    by (apply Z.eqb_neq; congruence).
  assert (Hcfg : (STRING_DESCRIPTOR =? CONFIG_DESCRIPTOR) = false)
    by (apply Z.eqb_neq; congruence).
  split; [ reflexivity | ].
  unfold fraucheky_get_descriptor.
  rewrite get_descriptor_guard, Hdev, Hcfg, Z.eqb_refl.
  split; intros Hrange.
  - destruct (Z.ltb_spec desc_index string_descriptors_count) as [_ | Hge];
      [ | lia ].
    rewrite string_descriptors_count_eq in Hrange.
    exists (string_descriptors_at desc_index). split.
    + unfold string_descriptors_at.
      assert (Hcase : desc_index = 0 \/ desc_index = 1 \/ desc_index = 2
                      \/ desc_index = 3) by lia.
      destruct Hcase as [-> | [-> | [-> | ->]]]; reflexivity.
    + lld_unfold. reflexivity.
  - destruct (Z.ltb_spec desc_index string_descriptors_count) as [Hlt | _];
      [ lia | reflexivity ].
Qed.

(** C3: a request for the configuration descriptor of the device with
    language index 0 hands the link layer [config_desc]; its
    [wTotalLength] field, bytes 2 and 3 read little-endian, is the length
    of the table, and that length is 32 = 9 + 9 + 7 + 7, whatever
    [MSC_TOTAL_LENGTH] (23) says. *)
Theorem get_descriptor_config_total_length (desc_index : Z)
  (log : list lld_call) :
  fraucheky_get_descriptor DEVICE_RECIPIENT CONFIG_DESCRIPTOR desc_index 0 log
  = (USB_SUCCESS, log ++ [Set_data_to_send config_desc (sizeof config_desc)])
  /\ le16 config_desc 2 = sizeof config_desc
  /\ length config_desc = 32%nat
  /\ sizeof config_desc = 9 + 9 + 7 + 7
  /\ MSC_TOTAL_LENGTH = 23
  /\ MSC_TOTAL_LENGTH <> le16 config_desc 2.
Proof using DEVICE_CONFIG_distinct.
  clear DEVICE_STRING_distinct CONFIG_STRING_distinct vid_pid_ver_length.
  assert (Hdev : (CONFIG_DESCRIPTOR =? DEVICE_DESCRIPTOR) = false)
    by (apply Z.eqb_neq; congruence).
  unfold fraucheky_get_descriptor.
  rewrite get_descriptor_guard, Hdev, Z.eqb_refl.
  repeat split; try reflexivity.
  discriminate.
Qed.

(** C4: for every [desc_index], a request for the device descriptor of the
    device with language index 0 returns [USB_SUCCESS] and hands the link
    layer [device_desc], which is 18 bytes long, starts with the byte 18
    and has the device descriptor type tag as its byte 1. *)
Theorem get_descriptor_device (desc_index : Z) (log : list lld_call) :
  fraucheky_get_descriptor DEVICE_RECIPIENT DEVICE_DESCRIPTOR desc_index 0 log
  = (USB_SUCCESS, log ++ [Set_data_to_send device_desc 18])
  /\ length device_desc = 18%nat
  /\ nth_error device_desc 0 = Some 18
  /\ nth_error device_desc 1 = Some USB_DEVICE_DESCRIPTOR_TYPE.
Proof using vid_pid_ver_length.
  unfold fraucheky_get_descriptor.
  rewrite get_descriptor_guard, Z.eqb_refl. lld_unfold.
  rewrite sizeof_device_desc.
  repeat split.
  apply Nat2Z.inj. exact sizeof_device_desc.
Qed.

(** C5: whatever the descriptor type and index, a request whose recipient
    is not the device, or whose language index is not 0, returns
    [USB_UNSUPPORT]. *)
Theorem get_descriptor_other_recipient_or_language
  (rcp desc_type desc_index index : Z) (log : list lld_call) :
  rcp <> DEVICE_RECIPIENT \/ index <> 0 ->
  fst (fraucheky_get_descriptor rcp desc_type desc_index index log)
  = USB_UNSUPPORT.
Proof.
  intros Hother.
  rewrite get_descriptor_not_serviced; [ reflexivity | ].
  apply andb_false_iff.
  destruct Hother as [Hrcp | Hindex]; [ left | right ];
    now apply Z.eqb_neq.
Qed.

(** A descriptor type that is none of the three selectors is not
    serviced. *)
Lemma get_descriptor_other_type desc_type desc_index log :
  desc_type <> DEVICE_DESCRIPTOR ->
  desc_type <> CONFIG_DESCRIPTOR ->
  desc_type <> STRING_DESCRIPTOR ->
  fraucheky_get_descriptor DEVICE_RECIPIENT desc_type desc_index 0 log
  = (USB_UNSUPPORT, log).
Proof.
  intros Hdev Hcfg Hstr. unfold fraucheky_get_descriptor.
  apply Z.eqb_neq in Hdev, Hcfg, Hstr.
  rewrite get_descriptor_guard, Hdev, Hcfg, Hstr. reflexivity.
Qed.

(** C10: whenever the descriptor lookup returns [USB_UNSUPPORT] it has
    called no primitive of the link layer: the log of calls is the one it
    started from.  This covers the request for the device with language
    index 0 and a descriptor type that is none of [DEVICE_DESCRIPTOR],
    [CONFIG_DESCRIPTOR] and [STRING_DESCRIPTOR], which does return
    [USB_UNSUPPORT] ([get_descriptor_other_type]). *)
Theorem get_descriptor_unsupported_no_call
  (rcp desc_type desc_index index : Z) (log : list lld_call) :
  fst (fraucheky_get_descriptor rcp desc_type desc_index index log)
  = USB_UNSUPPORT ->
  snd (fraucheky_get_descriptor rcp desc_type desc_index index log) = log.
Proof.
  intros Hres.
  destruct (get_descriptor_cases rcp desc_type desc_index index log)
    as [Heq | (p & len & Heq)]; rewrite Heq in *.
  - reflexivity.
  - discriminate Hres.
Qed.

(** ** The control-request dispatcher *)

(** C2: for every [value] and [len], a request in the GET direction with
    request code 0xFE returns [USB_SUCCESS] and passes the outbound-data
    primitive, once, a buffer of exactly 4 bytes that are all zero. *)
Theorem setup_get_max_lun (req value len : Z) (log : list lld_call) :
  USB_SETUP_GET req = true ->
  fraucheky_setup req 0xFE value len log
  = (USB_SUCCESS, log ++ [Set_data_to_send lun_table 4])
  /\ length lun_table = 4%nat
  /\ Forall (fun b => b = 0) lun_table.
Proof.
  intros Hget. unfold fraucheky_setup. rewrite Hget.
  repeat split. repeat constructor.
Qed.

(** C6: the dispatcher returns [USB_SUCCESS] exactly for a request in the
    GET direction with code 0xFE and for a request in the other direction
    with code 0xFF, and [USB_UNSUPPORT] for every other pair; in the
    second case it returns without any call to the link layer. *)
Theorem setup_success_iff (req req_no value len : Z) (log : list lld_call) :
  (fst (fraucheky_setup req req_no value len log) = USB_SUCCESS <->
     (USB_SETUP_GET req = true /\ req_no = 0xFE)
     \/ (USB_SETUP_GET req = false /\ req_no = 0xFF))
  /\ (fst (fraucheky_setup req req_no value len log) = USB_UNSUPPORT <->
       ~ ((USB_SETUP_GET req = true /\ req_no = 0xFE)
          \/ (USB_SETUP_GET req = false /\ req_no = 0xFF)))
  /\ (USB_SETUP_GET req = false -> req_no = 0xFF ->
      fraucheky_setup req req_no value len log = (USB_SUCCESS, log)).
Proof using Type.
  clear. unfold fraucheky_setup, MSC_GET_MAX_LUN_COMMAND,
    MSC_MASS_STORAGE_RESET_COMMAND.
  destruct (USB_SETUP_GET req);
    [ destruct (Z.eqb_spec req_no 0xFE) as [Hcode | Hcode]
    | destruct (Z.eqb_spec req_no 0xFF) as [Hcode | Hcode] ];
    cbn [fst bind usb_lld_set_data_to_send call ret];
    (split; [ | split ]).
  (* GET, 0xFE *)
  - split; [ intros _; left; split; [ reflexivity | exact Hcode ]
           | reflexivity ].
  - split; [ discriminate | ].
    intros Hnot. exfalso. apply Hnot. left. split; [ reflexivity | exact Hcode ].
  - discriminate.
  (* GET, another code *)
  - split; [ discriminate | ].
    intros [[_ Heq] | [Hdir _]]; [ contradiction | discriminate ].
  - split; [ | reflexivity ].
    intros _ [[_ Heq] | [Hdir _]]; [ contradiction | discriminate ].
  - discriminate.
  (* other direction, 0xFF *)
  - split; [ intros _; right; split; [ reflexivity | exact Hcode ]
           | reflexivity ].
  - split; [ discriminate | ].
    intros Hnot. exfalso. apply Hnot. right. split; [ reflexivity | exact Hcode ].
  - reflexivity.
  (* other direction, another code *)
  - split; [ discriminate | ].
    intros [[Hdir _] | [_ Heq]]; [ discriminate | contradiction ].
  - split; [ | reflexivity ].
    intros _ [[Hdir _] | [_ Heq]]; [ discriminate | contradiction ].
  - intros _ Heq. contradiction.
Qed.

(** C8: two calls of the dispatcher that agree on the direction of the
    request and on the request code return the same result and make the
    same calls to the link layer, with the same buffer and length, whatever
    the rest of their request types and their [value] and [len] arguments
    are. *)
Theorem setup_ignores_value_and_len
  (req req' req_no value len value' len' : Z) (log : list lld_call) :
  USB_SETUP_GET req = USB_SETUP_GET req' ->
  fraucheky_setup req req_no value len log
  = fraucheky_setup req' req_no value' len' log.
Proof using Type.
  clear. intros Hdir. unfold fraucheky_setup. rewrite Hdir. reflexivity.
Qed.

(** ** The endpoint configurator *)

(** C7: with [stop] false the configurator makes exactly one call, the
    configuration of endpoint 6 as a bulk endpoint with the receive
    buffer at 0x1c0, the transmit buffer at 0x180 and a maximum packet
    size of 64; with [stop] true it makes exactly two calls, the stall of
    the transmit and then of the receive direction of that endpoint.  A
    call never does some of both. *)
Theorem setup_endpoints_for_interface_calls (stop : Z) (log : list lld_call) :
  (stop = 0 ->
   fraucheky_setup_endpoints_for_interface stop log
   = (tt, log ++ [Setup_endpoint ENDP6 EP_BULK 0 0x1c0 0x180 64]))
  /\ (stop <> 0 ->
      fraucheky_setup_endpoints_for_interface stop log
      = (tt, log ++ [Stall_tx ENDP6; Stall_rx ENDP6])).
Proof.
  unfold fraucheky_setup_endpoints_for_interface.
  split; intros Hstop.
  - subst stop. reflexivity.
  - apply Z.eqb_neq in Hstop. rewrite Hstop. lld_unfold.
    rewrite <- app_assoc. reflexivity.
Qed.

(** ** More on the descriptor lookup *)

(** X1: the descriptor lookup returns [USB_SUCCESS] exactly when the
    recipient is the device, the language index is 0 and the descriptor
    type is the device selector, the configuration selector, or the string
    selector with a [desc_index] below 4. *)
Theorem get_descriptor_success_iff
  (rcp desc_type desc_index index : Z) (log : list lld_call) :
  fst (fraucheky_get_descriptor rcp desc_type desc_index index log)
  = USB_SUCCESS
  <-> rcp = DEVICE_RECIPIENT /\ index = 0
      /\ (desc_type = DEVICE_DESCRIPTOR
          \/ desc_type = CONFIG_DESCRIPTOR
          \/ (desc_type = STRING_DESCRIPTOR /\ desc_index < 4)).
Proof using Type.
  clear DEVICE_CONFIG_distinct DEVICE_STRING_distinct CONFIG_STRING_distinct
    vid_pid_ver_length.
  unfold fraucheky_get_descriptor. rewrite string_descriptors_count_eq.
  destruct (Z.eqb_spec rcp DEVICE_RECIPIENT) as [Hrcp | Hrcp];
    [ | split; [ discriminate | intros (Heq & _); contradiction ] ].
  destruct (Z.eqb_spec index 0) as [Hindex | Hindex];
    [ | split; [ discriminate | intros (_ & Heq & _); contradiction ] ].
  cbn [andb].
  destruct (Z.eqb_spec desc_type DEVICE_DESCRIPTOR) as [Hdev | Hdev];
    [ split; [ intros _; auto | reflexivity ] | ].
  destruct (Z.eqb_spec desc_type CONFIG_DESCRIPTOR) as [Hcfg | Hcfg];
    [ split; [ intros _; auto | reflexivity ] | ].
  destruct (Z.eqb_spec desc_type STRING_DESCRIPTOR) as [Hstr | Hstr].
  - destruct (Z.ltb_spec desc_index 4) as [Hlt | Hge].
    + split; [ intros _; auto 6 | reflexivity ].
    + split; [ discriminate | ].
      intros (_ & _ & [Heq | [Heq | [_ Hlt]]]);
        [ contradiction | contradiction | ].
      exfalso. apply (Z.lt_irrefl desc_index).
      apply Z.lt_le_trans with 4; assumption.
  - split; [ discriminate | ].
    intros (_ & _ & [Heq | [Heq | [Heq _]]]); contradiction.
Qed.

Lemma uint16_t_sizeof_bounds (a : list Z) :
  0 <= uint16_t (sizeof a) <= sizeof a.
Proof using Type.
  clear. unfold uint16_t, sizeof.
  assert (Hpos : 0 <= Z.of_nat (length a)) by apply Nat2Z.is_nonneg.
  split.
  - apply Z.mod_pos_bound. reflexivity.
  - apply Z.mod_le; [ exact Hpos | reflexivity ].
Qed.

Lemma sizeof_bounds (a : list Z) : 0 <= sizeof a <= sizeof a.
Proof using Type.
  clear. split; [ apply Nat2Z.is_nonneg | apply Z.le_refl ].
Qed.

(** Every entry of the string table holds a length within its buffer. *)
Lemma string_descriptors_at_within (i : Z) :
  0 <= size (string_descriptors_at i)
       <= sizeof (desc_ptr (string_descriptors_at i)).
Proof using Type.
  clear. unfold string_descriptors_at, string_descriptors.
  destruct (Z.to_nat i) as [ | [ | [ | [ | [ | n]]]]]; cbn [nth desc_ptr size];
    try apply uint16_t_sizeof_bounds.
  - split; [ apply Z.le_refl | apply Nat2Z.is_nonneg ].
  - destruct n; split; try apply Z.le_refl; apply Nat2Z.is_nonneg.
Qed.

(** X2: whatever the request and whatever the generated tables are, a call
    of the descriptor lookup or of the dispatcher never tells the link
    layer to send more bytes than the buffer it passes holds, nor a
    negative number of them. *)
Theorem entry_points_send_within :
  (forall rcp desc_type desc_index index log, exists calls,
      snd (fraucheky_get_descriptor rcp desc_type desc_index index log)
      = log ++ calls
      /\ Forall sends_within calls)
  /\ (forall req req_no value len log, exists calls,
        snd (fraucheky_setup req req_no value len log) = log ++ calls
        /\ Forall sends_within calls).
Proof using Type.
  clear DEVICE_CONFIG_distinct DEVICE_STRING_distinct CONFIG_STRING_distinct
    vid_pid_ver_length.
  assert (Hnone : forall log : list lld_call,
             exists calls, log = log ++ calls /\ Forall sends_within calls)
    by (intros log; exists []; split;
        [ symmetry; apply app_nil_r | constructor ]).
  assert (Hone : forall (log : list lld_call) c, sends_within c ->
             exists calls, log ++ [c] = log ++ calls
                           /\ Forall sends_within calls)
    by (intros log c Hc; exists [c]; split;
        [ reflexivity | constructor; [ exact Hc | constructor ] ]).
  split.
  - intros rcp desc_type desc_index index log.
    unfold fraucheky_get_descriptor.
    destruct ((rcp =? DEVICE_RECIPIENT) && (index =? 0)); [ | apply Hnone ].
    destruct (desc_type =? DEVICE_DESCRIPTOR);
      [ apply Hone, sizeof_bounds | ].
    destruct (desc_type =? CONFIG_DESCRIPTOR);
      [ apply Hone, sizeof_bounds | ].
    destruct (desc_type =? STRING_DESCRIPTOR); [ | apply Hnone ].
    destruct (desc_index <? string_descriptors_count); [ | apply Hnone ].
    apply Hone, string_descriptors_at_within.
  - intros req req_no value len log. unfold fraucheky_setup.
    destruct (USB_SETUP_GET req).
    + destruct (req_no =? MSC_GET_MAX_LUN_COMMAND); [ | apply Hnone ].
      apply Hone, sizeof_bounds.
    + destruct (req_no =? MSC_MASS_STORAGE_RESET_COMMAND); apply Hnone.
Qed.

Lemma uint16_t_sizeof_small (a : list Z) :
  sizeof a < 2 ^ 16 -> uint16_t (sizeof a) = sizeof a.
Proof using Type.
  clear. intros Hsmall. unfold uint16_t.
  apply Z.mod_small. split; [ apply Nat2Z.is_nonneg | exact Hsmall ].
Qed.

(** When the generated strings fit a [uint16_t] length, every entry of the
    string table holds the length of its buffer. *)
Lemma string_descriptors_at_whole (i : Z) :
  sizeof string_vendor < 2 ^ 16 ->
  sizeof string_product < 2 ^ 16 ->
  size (string_descriptors_at i) = sizeof (desc_ptr (string_descriptors_at i)).
Proof using Type.
  clear. intros Hvendor Hproduct.
  unfold string_descriptors_at, string_descriptors.
  destruct (Z.to_nat i) as [ | [ | [ | [ | [ | n]]]]]; cbn [nth desc_ptr size].
  - reflexivity.
  - now apply uint16_t_sizeof_small.
  - now apply uint16_t_sizeof_small.
  - reflexivity.
  - reflexivity.
  - destruct n; reflexivity.
Qed.

(** X3: when the vendor and product strings of the generated include file
    are shorter than 2^16 bytes, so that their [sizeof] fits the
    [uint16_t] field of [struct desc], every buffer the descriptor lookup
    hands to the link layer is handed over whole: the length passed is the
    number of bytes of the table. *)
Theorem get_descriptor_sends_whole
  (rcp desc_type desc_index index : Z) (log : list lld_call) :
  sizeof string_vendor < 2 ^ 16 ->
  sizeof string_product < 2 ^ 16 ->
  exists calls,
    snd (fraucheky_get_descriptor rcp desc_type desc_index index log)
    = log ++ calls
    /\ Forall sends_whole calls.
Proof using Type.
  clear DEVICE_CONFIG_distinct DEVICE_STRING_distinct CONFIG_STRING_distinct
    vid_pid_ver_length.
  intros Hvendor Hproduct.
  assert (Hnone : exists calls, log = log ++ calls /\ Forall sends_whole calls)
    by (exists []; split; [ symmetry; apply app_nil_r | constructor ]).
  assert (Hone : forall c, sends_whole c ->
             exists calls, log ++ [c] = log ++ calls
                           /\ Forall sends_whole calls)
    by (intros c Hc; exists [c]; split;
        [ reflexivity | constructor; [ exact Hc | constructor ] ]).
  unfold fraucheky_get_descriptor.
  destruct ((rcp =? DEVICE_RECIPIENT) && (index =? 0)); [ | exact Hnone ].
  destruct (desc_type =? DEVICE_DESCRIPTOR); [ now apply Hone | ].
  destruct (desc_type =? CONFIG_DESCRIPTOR); [ now apply Hone | ].
  destruct (desc_type =? STRING_DESCRIPTOR); [ | exact Hnone ].
  destruct (desc_index <? string_descriptors_count); [ | exact Hnone ].
  apply Hone. now apply string_descriptors_at_whole.
Qed.

(** X5: the descriptor lookup and the dispatcher make at most one call to
    the link layer, and it is a call of [usb_lld_set_data_to_send]: they
    never configure or stall an endpoint.  The endpoint configurator never
    calls [usb_lld_set_data_to_send], and every call it makes is about
    [ENDP6]. *)
Theorem entry_points_call_kinds :
  (forall rcp desc_type desc_index index log, exists calls,
      snd (fraucheky_get_descriptor rcp desc_type desc_index index log)
      = log ++ calls
      /\ (length calls <= 1)%nat
      /\ forallb is_send calls = true)
  /\ (forall req req_no value len log, exists calls,
        snd (fraucheky_setup req req_no value len log) = log ++ calls
        /\ (length calls <= 1)%nat
        /\ forallb is_send calls = true)
  /\ (forall stop log, exists calls,
        snd (fraucheky_setup_endpoints_for_interface stop log) = log ++ calls
        /\ forallb (fun c => negb (is_send c)) calls = true
        /\ Forall (fun c => endpoint_of c = Some ENDP6) calls).
Proof using Type.
  clear DEVICE_CONFIG_distinct DEVICE_STRING_distinct CONFIG_STRING_distinct
    vid_pid_ver_length.
  assert (Hnone : forall log : list lld_call, exists calls,
             log = log ++ calls /\ (length calls <= 1)%nat
             /\ forallb is_send calls = true)
    by (intros log; exists []; repeat split;
        [ symmetry; apply app_nil_r | apply Nat.le_0_l ]).
  assert (Hone : forall (log : list lld_call) p len, exists calls,
             log ++ [Set_data_to_send p len] = log ++ calls
             /\ (length calls <= 1)%nat
             /\ forallb is_send calls = true)
    by (intros log p len; exists [Set_data_to_send p len]; repeat split;
        apply Nat.le_refl).
  split; [ | split ].
  - intros rcp desc_type desc_index index log.
    unfold fraucheky_get_descriptor.
    destruct ((rcp =? DEVICE_RECIPIENT) && (index =? 0)); [ | apply Hnone ].
    destruct (desc_type =? DEVICE_DESCRIPTOR); [ apply Hone | ].
    destruct (desc_type =? CONFIG_DESCRIPTOR); [ apply Hone | ].
    destruct (desc_type =? STRING_DESCRIPTOR); [ | apply Hnone ].
    destruct (desc_index <? string_descriptors_count);
      [ apply Hone | apply Hnone ].
  - intros req req_no value len log. unfold fraucheky_setup.
    destruct (USB_SETUP_GET req).
    + destruct (req_no =? MSC_GET_MAX_LUN_COMMAND);
        [ apply Hone | apply Hnone ].
    + destruct (req_no =? MSC_MASS_STORAGE_RESET_COMMAND); apply Hnone.
  - intros stop log. unfold fraucheky_setup_endpoints_for_interface.
    destruct (stop =? 0).
    + eexists. split; [ reflexivity | ].
      split; [ reflexivity | repeat constructor ].
    + exists [Stall_tx ENDP6; Stall_rx ENDP6]. split.
      * lld_unfold. cbn [snd]. symmetry. apply (app_assoc log [_] [_]).
      * split; [ reflexivity | repeat constructor ].
Qed.

(** X6: the three string indices that [device_desc] advertises, in its
    bytes 14 (manufacturer), 15 (product) and 16 (serial number), are
    indices the descriptor lookup serves: asked for them, it returns
    [USB_SUCCESS] and sends the vendor string, the product string and the
    serial number string. *)
Theorem device_desc_string_indices_served (log : list lld_call) :
  (nth_error device_desc 14 = Some 1
   /\ fraucheky_get_descriptor DEVICE_RECIPIENT STRING_DESCRIPTOR 1 0 log
      = (USB_SUCCESS,
         log ++ [Set_data_to_send string_vendor
                   (uint16_t (sizeof string_vendor))]))
  /\ (nth_error device_desc 15 = Some 2
      /\ fraucheky_get_descriptor DEVICE_RECIPIENT STRING_DESCRIPTOR 2 0 log
         = (USB_SUCCESS,
            log ++ [Set_data_to_send string_product
                      (uint16_t (sizeof string_product))]))
  /\ (nth_error device_desc 16 = Some 3
      /\ fraucheky_get_descriptor DEVICE_RECIPIENT STRING_DESCRIPTOR 3 0 log
         = (USB_SUCCESS, log ++ [Set_data_to_send string_serial 18])).
Proof using DEVICE_STRING_distinct CONFIG_STRING_distinct vid_pid_ver_length.
  clear DEVICE_CONFIG_distinct.
  assert (Hdev : (STRING_DESCRIPTOR =? DEVICE_DESCRIPTOR) = false)
    by (apply Z.eqb_neq; intros Heq; apply DEVICE_STRING_distinct;
        symmetry; exact Heq).
  assert (Hcfg : (STRING_DESCRIPTOR =? CONFIG_DESCRIPTOR) = false)
    by (apply Z.eqb_neq; intros Heq; apply CONFIG_STRING_distinct;
        symmetry; exact Heq).
  unfold fraucheky_get_descriptor, device_desc.
  rewrite get_descriptor_guard, Hdev, Hcfg, Z.eqb_refl.
  destruct vid_pid_ver as [ | b0 [ | b1 [ | b2 [ | b3 [ | b4 [ | b5 rest]]]]]];
    try discriminate vid_pid_ver_length.
  destruct rest; [ | discriminate vid_pid_ver_length ].
  repeat split.
Qed.

(** ** More on the dispatcher *)

(** X4: whenever the dispatcher returns [USB_UNSUPPORT] it has made no call
    to the link layer. *)
Theorem setup_unsupported_no_call
  (req req_no value len : Z) (log : list lld_call) :
  fst (fraucheky_setup req req_no value len log) = USB_UNSUPPORT ->
  snd (fraucheky_setup req req_no value len log) = log.
Proof using Type.
  clear. unfold fraucheky_setup.
  destruct (USB_SETUP_GET req).
  - destruct (req_no =? MSC_GET_MAX_LUN_COMMAND);
      [ discriminate | reflexivity ].
  - destruct (req_no =? MSC_MASS_STORAGE_RESET_COMMAND); reflexivity.
Qed.

(** ** The configuration descriptor and the endpoint configurator *)

(** What [descriptors_of] returns is a cut of the buffer, each piece as
    long as its first byte says. *)
Lemma descriptors_of_sound (fuel : nat) :
  forall d ds,
    descriptors_of fuel d = Some ds ->
    concat ds = d /\ Forall (fun x => nth_error x 0 = Some (sizeof x)) ds.
Proof using Type.
  clear. induction fuel as [ | fuel IH]; intros d ds Hcut.
  - destruct d as [ | bLength rest]; [ | discriminate Hcut ].
    injection Hcut as <-. split; [ reflexivity | constructor ].
  - destruct d as [ | bLength rest].
    + injection Hcut as <-. split; [ reflexivity | constructor ].
    + cbn [descriptors_of] in Hcut.
      destruct ((2 <=? bLength) && (bLength <=? sizeof (bLength :: rest)))
        eqn:Hfits; [ | discriminate Hcut ].
      destruct (descriptors_of fuel
                  (skipn (Z.to_nat bLength) (bLength :: rest)))
        as [tail | ] eqn:Htail; [ | discriminate Hcut ].
      injection Hcut as <-.
      apply andb_true_iff in Hfits. destruct Hfits as [Hlow Hhigh].
      apply Z.leb_le in Hlow, Hhigh. unfold sizeof in Hhigh.
      destruct (IH _ _ Htail) as [Hconcat Hall].
      split.
      * cbn [concat]. rewrite Hconcat. apply firstn_skipn.
      * constructor; [ | exact Hall ].
        unfold sizeof. rewrite length_firstn, Nat.min_l by lia.
        rewrite Z2Nat.id by lia.
        destruct (Z.to_nat bLength) as [ | n] eqn:Hn; [ lia | reflexivity ].
Qed.

(** X7: read as a host reads it, [bLength] by [bLength], [config_desc]
    splits without remainder into four descriptors: the configuration
    header, one interface descriptor and two endpoint descriptors.  The
    header announces one interface, the interface announces two endpoints,
    and [wTotalLength] is the sum of the four lengths. *)
Theorem config_desc_descriptor_chain :
  exists cfg itf ep_in ep_out,
    descriptors_of (length config_desc) config_desc
    = Some [cfg; itf; ep_in; ep_out]
    /\ config_desc = cfg ++ itf ++ ep_in ++ ep_out
    /\ nth_error cfg 1 = Some USB_CONFIGURATION_DESCRIPTOR_TYPE
    /\ nth_error itf 1 = Some USB_INTERFACE_DESCRIPTOR_TYPE
    /\ nth_error ep_in 1 = Some USB_ENDPOINT_DESCRIPTOR_TYPE
    /\ nth_error ep_out 1 = Some USB_ENDPOINT_DESCRIPTOR_TYPE
    /\ nth_error cfg 4 = Some 1
    /\ nth_error itf 4 = Some 2
    /\ le16 cfg 2 = sizeof cfg + sizeof itf + sizeof ep_in + sizeof ep_out.
Proof using Type.
  clear. do 4 eexists. split; [ reflexivity | ]. repeat split.
Qed.

(** X8: the packet size the endpoint configurator gives the link layer for
    endpoint 6 is the [wMaxPacketSize] that [config_desc] declares for the
    IN and for the OUT endpoint, and the transmit buffer of that size ends
    where the receive buffer starts, so the two do not overlap. *)
Theorem setup_endpoints_matches_config_desc (log : list lld_call) :
  exists rx_addr tx_addr rx_size,
    fraucheky_setup_endpoints_for_interface 0 log
    = (tt, log ++ [Setup_endpoint ENDP6 EP_BULK 0 rx_addr tx_addr rx_size])
    /\ le16 config_desc 22 = rx_size
    /\ le16 config_desc 29 = rx_size
    /\ tx_addr + rx_size = rx_addr.
Proof using Type.
  clear. do 3 eexists. split; [ reflexivity | ]. repeat split.
Qed.

End Fraucheky.

(** ** The entry points of the concrete build *)
Module SampleBuild.
Import Sample.

Definition string_descriptors : list desc :=
  string_descriptors USB_STRING_DESCRIPTOR_TYPE string_vendor string_product.

Definition get_descriptor : Z -> Z -> Z -> Z -> lld usb_result :=
  fraucheky_get_descriptor DEVICE_RECIPIENT DEVICE_DESCRIPTOR
    CONFIG_DESCRIPTOR STRING_DESCRIPTOR USB_DEVICE_DESCRIPTOR_TYPE
    USB_CONFIGURATION_DESCRIPTOR_TYPE USB_STRING_DESCRIPTOR_TYPE
    USB_INTERFACE_DESCRIPTOR_TYPE USB_ENDPOINT_DESCRIPTOR_TYPE
    vid_pid_ver string_vendor string_product.

Definition setup : Z -> Z -> Z -> Z -> lld usb_result :=
  fraucheky_setup USB_SETUP_GET.

Definition setup_endpoints_for_interface : Z -> lld unit :=
  fraucheky_setup_endpoints_for_interface ENDP6 EP_BULK.

(** GET_DESCRIPTOR(string 3) yields the serial number FSIJ-0.0. *)
Example get_descriptor_serial :
  get_descriptor 0 3 3 0 []
  = (USB_SUCCESS,
     [Set_data_to_send
        [18; 3; 70; 0; 83; 0; 73; 0; 74; 0; 45; 0; 48; 0; 46; 0; 48; 0] 18]).
Proof. reflexivity. Qed.

(** GET_DESCRIPTOR(string 4) is past the table. *)
Example get_descriptor_string_4 :
  get_descriptor 0 3 4 0 [] = (USB_UNSUPPORT, []).
Proof. reflexivity. Qed.

(** GET_DESCRIPTOR(device) on an interface recipient. *)
Example get_descriptor_interface_recipient :
  get_descriptor 1 1 0 0 [] = (USB_UNSUPPORT, []).
Proof. reflexivity. Qed.

(** bmRequestType 0xA1 (class, interface, device-to-host), GET_MAX_LUN. *)
Example setup_a1_fe :
  setup 0xA1 0xFE 0 1 [] = (USB_SUCCESS, [Set_data_to_send [0; 0; 0; 0] 4]).
Proof. reflexivity. Qed.

(** bmRequestType 0x21 (class, interface, host-to-device), reset. *)
Example setup_21_ff : setup 0x21 0xFF 0 0 [] = (USB_SUCCESS, []).
Proof. reflexivity. Qed.

(** The two codes in the wrong direction. *)
Example setup_a1_ff : setup 0xA1 0xFF 0 0 [] = (USB_UNSUPPORT, []).
Proof. reflexivity. Qed.

Example setup_21_fe : setup 0x21 0xFE 0 1 [] = (USB_UNSUPPORT, []).
Proof. reflexivity. Qed.

(** Activation, then deactivation of the interface. *)
Example setup_endpoints_start_stop :
  (setup_endpoints_for_interface 0 ;; setup_endpoints_for_interface 1)%lld []
  = (tt, [Setup_endpoint 6 0 0 0x1c0 0x180 64; Stall_tx 6; Stall_rx 6]).
Proof. reflexivity. Qed.

End SampleBuild.

(** ** The theorems at the concrete build *)

(** C1 at the concrete build: string 3 is served from the table, string 7
    is refused. *)
Lemma get_descriptor_string_witness :
  (exists d,
      nth_error SampleBuild.string_descriptors 3 = Some d
      /\ SampleBuild.get_descriptor 0 3 3 0 []
         = (USB_SUCCESS, [Set_data_to_send (desc_ptr d) (size d)]))
  /\ fst (SampleBuild.get_descriptor 0 3 7 0 []) = USB_UNSUPPORT.
Proof.
  assert (Hdev : Sample.DEVICE_DESCRIPTOR <> Sample.STRING_DESCRIPTOR)
    by discriminate.
  assert (Hcfg : Sample.CONFIG_DESCRIPTOR <> Sample.STRING_DESCRIPTOR)
    by discriminate.
  split.
  - apply (get_descriptor_string Sample.DEVICE_RECIPIENT
             Sample.DEVICE_DESCRIPTOR Sample.CONFIG_DESCRIPTOR
             Sample.STRING_DESCRIPTOR Sample.USB_DEVICE_DESCRIPTOR_TYPE
             Sample.USB_CONFIGURATION_DESCRIPTOR_TYPE
             Sample.USB_STRING_DESCRIPTOR_TYPE
             Sample.USB_INTERFACE_DESCRIPTOR_TYPE
             Sample.USB_ENDPOINT_DESCRIPTOR_TYPE Sample.vid_pid_ver
             Sample.string_vendor Sample.string_product Hdev Hcfg 3 []).
    vm_compute. split; [ discriminate | reflexivity ].
  - apply (get_descriptor_string Sample.DEVICE_RECIPIENT
             Sample.DEVICE_DESCRIPTOR Sample.CONFIG_DESCRIPTOR
             Sample.STRING_DESCRIPTOR Sample.USB_DEVICE_DESCRIPTOR_TYPE
             Sample.USB_CONFIGURATION_DESCRIPTOR_TYPE
             Sample.USB_STRING_DESCRIPTOR_TYPE
             Sample.USB_INTERFACE_DESCRIPTOR_TYPE
             Sample.USB_ENDPOINT_DESCRIPTOR_TYPE Sample.vid_pid_ver
             Sample.string_vendor Sample.string_product Hdev Hcfg 7 []).
    vm_compute. discriminate.
Defined.

(** C3 at the concrete build: the configuration descriptor sent has 32
    bytes and says so in its [wTotalLength]. *)
Lemma get_descriptor_config_total_length_witness :
  Sample.DEVICE_DESCRIPTOR <> Sample.CONFIG_DESCRIPTOR
  /\ exists p,
      SampleBuild.get_descriptor 0 2 0 0 [] = (USB_SUCCESS, [Set_data_to_send p 32])
      /\ le16 p 2 = 32
      /\ length p = 32%nat.
Proof.
  assert (Hdev : Sample.DEVICE_DESCRIPTOR <> Sample.CONFIG_DESCRIPTOR)
    by discriminate.
  split; [ exact Hdev | ].
  destruct (get_descriptor_config_total_length Sample.DEVICE_RECIPIENT
              Sample.DEVICE_DESCRIPTOR Sample.CONFIG_DESCRIPTOR
              Sample.STRING_DESCRIPTOR Sample.USB_DEVICE_DESCRIPTOR_TYPE
              Sample.USB_CONFIGURATION_DESCRIPTOR_TYPE
              Sample.USB_STRING_DESCRIPTOR_TYPE
              Sample.USB_INTERFACE_DESCRIPTOR_TYPE
              Sample.USB_ENDPOINT_DESCRIPTOR_TYPE Sample.vid_pid_ver
              Sample.string_vendor Sample.string_product Hdev 0 [])
    as (Hrun & Hfield & Hlen & Hsize & _).
  eexists. split; [ exact Hrun | ].
  split; [ rewrite Hfield; exact Hsize | exact Hlen ].
Defined.

(** C4 at the concrete build: the 18 bytes of the device descriptor. *)
Lemma get_descriptor_device_witness :
  length Sample.vid_pid_ver = 6%nat
  /\ SampleBuild.get_descriptor 0 1 0 0 []
     = (USB_SUCCESS,
        [Set_data_to_send
           [18; 1; 0x10; 0x01; 0; 0; 0; 0x40;
            0x4b; 0x23; 0x04; 0x00; 0x00; 0x02; 1; 2; 3; 1] 18]).
Proof.
  assert (Hinc : length Sample.vid_pid_ver = 6%nat) by reflexivity.
  split; [ exact Hinc | ].
  apply (get_descriptor_device Sample.DEVICE_RECIPIENT
           Sample.DEVICE_DESCRIPTOR Sample.CONFIG_DESCRIPTOR
           Sample.STRING_DESCRIPTOR Sample.USB_DEVICE_DESCRIPTOR_TYPE
           Sample.USB_CONFIGURATION_DESCRIPTOR_TYPE
           Sample.USB_STRING_DESCRIPTOR_TYPE
           Sample.USB_INTERFACE_DESCRIPTOR_TYPE
           Sample.USB_ENDPOINT_DESCRIPTOR_TYPE Sample.vid_pid_ver
           Sample.string_vendor Sample.string_product Hinc 0 []).
Defined.

(** C5 at the concrete build: an interface recipient asking with language
    0x0409. *)
Lemma get_descriptor_other_recipient_or_language_witness :
  (1 <> Sample.DEVICE_RECIPIENT \/ 0x0409 <> 0)
  /\ fst (SampleBuild.get_descriptor 1 3 2 0x0409 []) = USB_UNSUPPORT.
Proof.
  assert (Hother : 1 <> Sample.DEVICE_RECIPIENT \/ 0x0409 <> 0)
    by (left; discriminate).
  split; [ exact Hother | ].
  exact (get_descriptor_other_recipient_or_language Sample.DEVICE_RECIPIENT
           Sample.DEVICE_DESCRIPTOR Sample.CONFIG_DESCRIPTOR
           Sample.STRING_DESCRIPTOR Sample.USB_DEVICE_DESCRIPTOR_TYPE
           Sample.USB_CONFIGURATION_DESCRIPTOR_TYPE
           Sample.USB_STRING_DESCRIPTOR_TYPE
           Sample.USB_INTERFACE_DESCRIPTOR_TYPE
           Sample.USB_ENDPOINT_DESCRIPTOR_TYPE Sample.vid_pid_ver
           Sample.string_vendor Sample.string_product 1 3 2 0x0409 [] Hother).
Defined.

(** C10 at the concrete build: an interface descriptor asked of the device
    is refused and the log of earlier calls is left as it was. *)
Lemma get_descriptor_unsupported_no_call_witness :
  fst (SampleBuild.get_descriptor 0 Sample.INTERFACE_DESCRIPTOR 0 0
         [Stall_tx 6])
  = USB_UNSUPPORT
  /\ snd (SampleBuild.get_descriptor 0 Sample.INTERFACE_DESCRIPTOR 0 0
            [Stall_tx 6])
     = [Stall_tx 6].
Proof.
  assert (Hres : fst (SampleBuild.get_descriptor 0 Sample.INTERFACE_DESCRIPTOR
                        0 0 [Stall_tx 6])
                 = USB_UNSUPPORT) by reflexivity.
  split; [ exact Hres | ].
  exact (get_descriptor_unsupported_no_call Sample.DEVICE_RECIPIENT
           Sample.DEVICE_DESCRIPTOR Sample.CONFIG_DESCRIPTOR
           Sample.STRING_DESCRIPTOR Sample.USB_DEVICE_DESCRIPTOR_TYPE
           Sample.USB_CONFIGURATION_DESCRIPTOR_TYPE
           Sample.USB_STRING_DESCRIPTOR_TYPE
           Sample.USB_INTERFACE_DESCRIPTOR_TYPE
           Sample.USB_ENDPOINT_DESCRIPTOR_TYPE Sample.vid_pid_ver
           Sample.string_vendor Sample.string_product
           0 Sample.INTERFACE_DESCRIPTOR 0 0 [Stall_tx 6] Hres).
Defined.

(** C2 at the concrete build: GET_MAX_LUN with bmRequestType 0xA1. *)
Lemma setup_get_max_lun_witness :
  Sample.USB_SETUP_GET 0xA1 = true
  /\ SampleBuild.setup 0xA1 0xFE 0 1 []
     = (USB_SUCCESS, [Set_data_to_send [0; 0; 0; 0] 4]).
Proof.
  assert (Hget : Sample.USB_SETUP_GET 0xA1 = true) by reflexivity.
  split; [ exact Hget | ].
  apply (setup_get_max_lun Sample.USB_SETUP_GET 0xA1 0 1 [] Hget).
Defined.

(** C6 at the concrete build: the reset request with bmRequestType 0x21 is
    acknowledged without a call. *)
Lemma setup_success_iff_witness :
  Sample.USB_SETUP_GET 0x21 = false
  /\ SampleBuild.setup 0x21 0xFF 0 0 [] = (USB_SUCCESS, []).
Proof.
  assert (Hset : Sample.USB_SETUP_GET 0x21 = false) by reflexivity.
  split; [ exact Hset | ].
  apply (setup_success_iff Sample.USB_SETUP_GET 0x21 0xFF 0 0 []);
    [ exact Hset | reflexivity ].
Defined.

(** C7 at the concrete build: one configuration call on start, the two
    stalls on stop. *)
Lemma setup_endpoints_for_interface_calls_witness :
  SampleBuild.setup_endpoints_for_interface 0 []
  = (tt, [Setup_endpoint 6 0 0 0x1c0 0x180 64])
  /\ SampleBuild.setup_endpoints_for_interface 1 []
     = (tt, [Stall_tx 6; Stall_rx 6]).
Proof.
  split.
  - apply (setup_endpoints_for_interface_calls Sample.ENDP6 Sample.EP_BULK 0 []).
    reflexivity.
  - apply (setup_endpoints_for_interface_calls Sample.ENDP6 Sample.EP_BULK 1 []).
    discriminate.
Defined.

(** ** The further theorems at the concrete build *)

(** X3 at the concrete build: the 10-byte vendor string is sent whole. *)
Lemma get_descriptor_sends_whole_witness :
  (sizeof Sample.string_vendor < 2 ^ 16
   /\ sizeof Sample.string_product < 2 ^ 16)
  /\ exists calls,
      snd (SampleBuild.get_descriptor 0 3 1 0 []) = [] ++ calls
      /\ Forall sends_whole calls.
Proof.
  assert (Hvendor : sizeof Sample.string_vendor < 2 ^ 16) by reflexivity.
  assert (Hproduct : sizeof Sample.string_product < 2 ^ 16) by reflexivity.
  split; [ split; assumption | ].
  exact (get_descriptor_sends_whole Sample.DEVICE_RECIPIENT
           Sample.DEVICE_DESCRIPTOR Sample.CONFIG_DESCRIPTOR
           Sample.STRING_DESCRIPTOR Sample.USB_DEVICE_DESCRIPTOR_TYPE
           Sample.USB_CONFIGURATION_DESCRIPTOR_TYPE
           Sample.USB_STRING_DESCRIPTOR_TYPE
           Sample.USB_INTERFACE_DESCRIPTOR_TYPE
           Sample.USB_ENDPOINT_DESCRIPTOR_TYPE Sample.vid_pid_ver
           Sample.string_vendor Sample.string_product 0 3 1 0 []
           Hvendor Hproduct).
Defined.

(** X4 at the concrete build: GET_MAX_LUN sent in the host-to-device
    direction is refused and the log of earlier calls is left as it was. *)
Lemma setup_unsupported_no_call_witness :
  fst (SampleBuild.setup 0x21 0xFE 0 1 [Stall_rx 6]) = USB_UNSUPPORT
  /\ snd (SampleBuild.setup 0x21 0xFE 0 1 [Stall_rx 6]) = [Stall_rx 6].
Proof.
  assert (Hres : fst (SampleBuild.setup 0x21 0xFE 0 1 [Stall_rx 6])
                 = USB_UNSUPPORT) by reflexivity.
  split; [ exact Hres | ].
  exact (setup_unsupported_no_call Sample.USB_SETUP_GET 0x21 0xFE 0 1
           [Stall_rx 6] Hres).
Defined.

(** X6 at the concrete build: the product string is found under the index
    that byte 15 of the device descriptor gives. *)
Lemma device_desc_string_indices_served_witness :
  (Sample.DEVICE_DESCRIPTOR <> Sample.STRING_DESCRIPTOR
   /\ Sample.CONFIG_DESCRIPTOR <> Sample.STRING_DESCRIPTOR
   /\ length Sample.vid_pid_ver = 6%nat)
  /\ SampleBuild.get_descriptor 0 3 2 0 []
     = (USB_SUCCESS, [Set_data_to_send Sample.string_product 8]).
Proof.
  assert (Hdev : Sample.DEVICE_DESCRIPTOR <> Sample.STRING_DESCRIPTOR)
    by discriminate.
  assert (Hcfg : Sample.CONFIG_DESCRIPTOR <> Sample.STRING_DESCRIPTOR)
    by discriminate.
  assert (Hinc : length Sample.vid_pid_ver = 6%nat) by reflexivity.
  split; [ repeat split; assumption | ].
  apply (device_desc_string_indices_served Sample.DEVICE_RECIPIENT
           Sample.DEVICE_DESCRIPTOR Sample.CONFIG_DESCRIPTOR
           Sample.STRING_DESCRIPTOR Sample.USB_DEVICE_DESCRIPTOR_TYPE
           Sample.USB_CONFIGURATION_DESCRIPTOR_TYPE
           Sample.USB_STRING_DESCRIPTOR_TYPE
           Sample.USB_INTERFACE_DESCRIPTOR_TYPE
           Sample.USB_ENDPOINT_DESCRIPTOR_TYPE Sample.vid_pid_ver
           Sample.string_vendor Sample.string_product Hdev Hcfg Hinc []).
Defined.

(** A [bLength] that runs past the end of the buffer, and one below the
    header size, are refused by [descriptors_of]. *)
Example descriptors_of_overrun : descriptors_of 3 [5; 1; 2] = None.
Proof. reflexivity. Qed.

Example descriptors_of_short : descriptors_of 3 [1; 1; 2] = None.
Proof. reflexivity. Qed.

(** C8 at the concrete build: GET_MAX_LUN asked with bmRequestType 0xA1,
    value 0 and length 1, and with bmRequestType 0x80, value 7 and length
    0x200. *)
Lemma setup_ignores_value_and_len_witness :
  Sample.USB_SETUP_GET 0xA1 = Sample.USB_SETUP_GET 0x80
  /\ SampleBuild.setup 0xA1 0xFE 0 1 [] = SampleBuild.setup 0x80 0xFE 7 0x200 [].
Proof.
  assert (Hdir : Sample.USB_SETUP_GET 0xA1 = Sample.USB_SETUP_GET 0x80)
    by reflexivity.
  split; [ exact Hdir | ].
  exact (setup_ignores_value_and_len Sample.USB_SETUP_GET 0xA1 0x80 0xFE
           0 1 7 0x200 [] Hdir).
Defined.
